(** * react-native-data-detector: the JavaScript facade over the native module

    The package's entry file exports two async functions, [downloadModel]
    and [detect], both of which call straight into the native module obtained
    from [requireNativeModule('ReactNativeDataDetector')].  This development
    embeds that file: the fragment of JavaScript it uses (nullish values,
    optional chaining, [??], async functions returning a promise), the
    bridge to the native module as explicit state passing with a log of the
    native calls made, and the two functions themselves.  It then embeds the
    example application that calls them: its state, its three handlers and
    the wiring of its controls. *)

From stdpp Require Import base strings gmap list.

Open Scope string_scope.
Open Scope list_scope.

(** ** The JavaScript fragment the facade uses *)

Module JS.

(** A value that may be [undefined] or [null]. *)
Inductive Nullable (A : Type) : Type :=
| undefined : Nullable A
| null : Nullable A
| defined (a : A) : Nullable A.
Arguments undefined {A}.
Arguments null {A}.
Arguments defined {A} a.

(** [x ?? d]: the right operand is used exactly when the left one is
    [undefined] or [null]. *)
Definition nullish_coalescing {A : Type} (x : Nullable A) (d : A) : A :=
  match x with
  | defined a => a
  | undefined | null => d
  end.

(** [o.k] on an object: reading a property the object does not have
    gives [undefined]. *)
Definition get_property {A : Type}
    (o : gmap string (Nullable A)) (k : string) : Nullable A :=
  match o !! k with
  | Some v => v
  | None => undefined
  end.

(** [o?.k]: short-circuits to [undefined] when [o] is nullish. *)
Definition optional_chain {A : Type}
    (o : Nullable (gmap string (Nullable A))) (k : string) : Nullable A :=
  match o with
  | defined obj => get_property obj k
  | undefined | null => undefined
  end.

(** An error value as the bridge delivers it. *)
Record Error : Type := mkError { code : string; message : string }.

(** Evaluating a call either returns a value or throws. *)
Inductive Completion (A : Type) : Type :=
| Normal (a : A) : Completion A
| Throw (e : Error) : Completion A.
Arguments Normal {A} a.
Arguments Throw {A} e.

(** The state in which a promise is observed. *)
Inductive Promise (A : Type) : Type :=
| Fulfilled (a : A) : Promise A
| Rejected (e : Error) : Promise A
| Pending : Promise A.
Arguments Fulfilled {A} a.
Arguments Rejected {A} e.
Arguments Pending {A}.

(** [async function f() { return e; }] where [e] evaluates to a promise:
    the promise of the call adopts the state of the returned promise; when
    evaluating [e] throws, the promise of the call is rejected with the
    thrown value. *)
Definition async_return {A : Type} (c : Completion (Promise A)) : Promise A :=
  match c with
  | Normal p => p
  | Throw e => Rejected e
  end.

End JS.

Import JS.

(** ** Data model *)

(** Modelled from the spec: the declaration of [DetectedEntity] lives in
    [ReactNativeDataDetector.types], which is not among the sources.  The
    tag is kept as the string that crosses the bridge. *)
Record DetectedEntity : Type := mkEntity {
  entity_type : string;
  entity_text : string;
  entity_start : Z;
  entity_end : Z;
  entity_data : option (gmap string string)
}.

(** Modelled from the spec: [DetectOptions], from the same missing
    declaration file, is an object whose [types] property, when present,
    holds an array of type tags. *)
Abbreviation DetectOptions := (gmap string (Nullable (list string))).

(** The array literal in [detect]. *)
Definition DEFAULT_TYPES : list string :=
  ["phoneNumber"; "link"; "email"; "address"; "date"].

(** ** The bridge to the native module *)

(** One entry per call that reaches the native module. *)
Inductive NativeCall : Type :=
| CallDetect (text : string) (types : list string)
| CallDownloadModel.

(** The native module: two functions returning promises.  [St] is whatever
    state the native side keeps (a downloaded model, for instance). *)
Record NativeModuleT (St : Type) : Type := mkNativeModule {
  native_detect :
    string → list string → St → Completion (Promise (list DetectedEntity)) * St;
  native_downloadModel :
    St → Completion (Promise bool) * St
}.
Arguments native_detect {St} _ _ _ _.
Arguments native_downloadModel {St} _ _.

Record World (St : Type) : Type := mkWorld {
  native_state : St;
  bridge_log : list NativeCall
}.
Arguments mkWorld {St} _ _.
Arguments native_state {St} _.
Arguments bridge_log {St} _.

Definition boot {St : Type} (s : St) : World St := mkWorld s [].

(** Computations that may call through the bridge. *)
Definition Bridge (St A : Type) : Type := World St → A * World St.

Definition ret {St A : Type} (a : A) : Bridge St A := λ w, (a, w).

Definition bind {St A B : Type}
    (c : Bridge St A) (k : A → Bridge St B) : Bridge St B :=
  λ w, let '(a, w') := c w in k a w'.

Notation "x <~ c ;; k" := (bind c (λ x, k))
  (at level 100, c at next level, right associativity).

(** ** The facade *)

Section Facade.

Context {St : Type}.
Variable NativeModule : NativeModuleT St.

(** [NativeModule.detect(text, types)] *)
Definition call_detect (text : string) (types : list string)
    : Bridge St (Completion (Promise (list DetectedEntity))) :=
  λ w, let '(r, s') := native_detect NativeModule text types (native_state w) in
       (r, mkWorld s' (bridge_log w ++ [CallDetect text types])).

(** [NativeModule.downloadModel()] *)
Definition call_downloadModel : Bridge St (Completion (Promise bool)) :=
  λ w, let '(r, s') := native_downloadModel NativeModule (native_state w) in
       (r, mkWorld s' (bridge_log w ++ [CallDownloadModel])).

(** [export async function downloadModel()] *)
Definition downloadModel : Bridge St (Promise bool) :=
  r <~ call_downloadModel ;;
  ret (async_return r).

(** The initialiser of [const types] in [detect]:
    [options?.types ?? ['phoneNumber', 'link', 'email', 'address', 'date']]. *)
Definition resolve_types (options : Nullable DetectOptions) : list string :=
  nullish_coalescing (optional_chain options "types") DEFAULT_TYPES.

(** [export async function detect(text, options?)] *)
Definition detect (text : string) (options : Nullable DetectOptions)
    : Bridge St (Promise (list DetectedEntity)) :=
  let types := resolve_types options in
  r <~ call_detect text types ;;
  ret (async_return r).

End Facade.

(** ** What the spec says of the native side *)

(** Modelled from the spec: the native detectors (the iOS and the Android
    module behind [requireNativeModule]) are not among the sources.  The spec
    has the requested types "restrict detection to" that set, and has a call
    with the empty set go through, "invoking it and getting nothing". *)
Record NativeDetectorContract {St : Type} (N : NativeModuleT St) : Prop := {
  restricts_to_requested :
    ∀ text types s es,
      (native_detect N text types s).1 = Normal (Fulfilled es) →
      ∀ e, e ∈ es → entity_type e ∈ types;
  empty_request_completes :
    ∀ text s, ∃ es, (native_detect N text [] s).1 = Normal (Fulfilled es)
}.

(** Modelled from the spec: a platform "whose detector has no such
    requirement" (iOS, where the source comment calls [downloadModel] a
    no-op); its native module, which is not among the sources, answers
    [downloadModel] with the fixed "no download needed" result [false]. *)
Definition no_model_requirement {St : Type} (N : NativeModuleT St) : Prop :=
  ∀ s, (native_downloadModel N s).1 = Normal (Fulfilled false).

(** A backend is deterministic when what it answers to [detect] depends on
    the arguments only, not on the state the native side is in. *)
Definition deterministic_backend {St : Type} (N : NativeModuleT St) : Prop :=
  ∀ text types s1 s2,
    (native_detect N text types s1).1 = (native_detect N text types s2).1.

(** Modelled from the spec: the requested types are an "ordered-irrelevant
    set"; a native detector that takes them so answers the same, and is left
    in the same state, whatever the order the same tags come in. *)
Definition filter_order_irrelevant {St : Type} (N : NativeModuleT St) : Prop :=
  ∀ text types types' s,
    types ≡ₚ types' →
    native_detect N text types s = native_detect N text types' s.

(** ** Two sample native modules *)

Definition whole_text_entity (text tag : string) : DetectedEntity :=
  mkEntity tag text 0 (Z.of_nat (String.length text)) None.

(** Reports the whole of a non-empty text once for every known tag that was
    requested, in its own fixed order. *)
Definition sample_scan (text : string) (types : list string) : list DetectedEntity :=
  if decide (text = "") then []
  else whole_text_entity text <$> filter (λ tag, tag ∈ types) DEFAULT_TYPES.

(** A stateless backend with nothing to download. *)
Definition PatternModule : NativeModuleT unit :=
  mkNativeModule unit
    (λ text types s, (Normal (Fulfilled (sample_scan text types)), s))
    (λ s, (Normal (Fulfilled false), s)).

Definition model_missing : Error :=
  mkError "ERR_DETECTION_FAILED" "Entity extraction model is not available".

(** A backend whose state records whether its model has been downloaded:
    [detect] is rejected until it has, and [downloadModel] reports whether it
    fetched anything. *)
Definition ModelModule : NativeModuleT bool :=
  mkNativeModule bool
    (λ text types downloaded,
       if downloaded
       then (Normal (Fulfilled (sample_scan text types)), downloaded)
       else (Normal (Rejected model_missing), downloaded))
    (λ downloaded, (Normal (Fulfilled (negb downloaded)), true)).

(** A backend whose [detect] throws before any promise is made. *)
Definition BrokenModule : NativeModuleT unit :=
  mkNativeModule unit
    (λ text types s, (Throw model_missing, s))
    (λ s, (Throw model_missing, s)).

(** ** The example application *)

(** The part of [Set] the application uses, on strings.  A [Set] iterates in
    insertion order and holds each element once: it is kept as the list of
    its elements in that order. *)
Module JSSet.

(** [s.has(x)] *)
Definition has (s : list string) (x : string) : bool := bool_decide (x ∈ s).

(** [s.add(x)]: an element already there keeps its place. *)
Definition add (s : list string) (x : string) : list string :=
  if has s x then s else s ++ [x].

(** [s.delete(x)] *)
Definition delete (s : list string) (x : string) : list string :=
  filter (λ y, y ≠ x) s.

(** [new Set(iterable)]: adds the elements one after the other. *)
Definition from_iterable (l : list string) : list string := foldl add [] l.

(** [Array.from(s)] *)
Definition to_array (s : list string) : list string := s.

End JSSet.

Module App.

(** The character written [\n]. *)
Definition newline : Ascii.ascii := Ascii.ascii_of_nat 10.

Definition SAMPLE_TEXT : string :=
  String.append "Call me at (555) 123-4567 or email john@example.com."
    (String newline
       (String.append "Visit https://reactnative.dev for docs."
          (String newline
             "Meet me at 1 Infinite Loop, Cupertino, CA 95014 on March 15, 2025."))).

Definition ALL_TYPES : list string :=
  ["phoneNumber"; "link"; "email"; "address"; "date"].

(** The five [useState] cells of [App]; [modelStatus] is [string | null]. *)
Record State : Type := mkState {
  text : string;
  selectedTypes : list string;
  results : list DetectedEntity;
  loading : bool;
  modelStatus : option string
}.

Definition initial_state : State :=
  mkState SAMPLE_TEXT (JSSet.from_iterable ALL_TYPES) [] false None.

Definition setText (v : string) (st : State) : State :=
  mkState v (selectedTypes st) (results st) (loading st) (modelStatus st).

(** Called with an updater function, which React applies to the current
    value. *)
Definition setSelectedTypes (f : list string → list string) (st : State) : State :=
  mkState (text st) (f (selectedTypes st)) (results st) (loading st) (modelStatus st).

Definition setResults (v : list DetectedEntity) (st : State) : State :=
  mkState (text st) (selectedTypes st) v (loading st) (modelStatus st).

Definition setLoading (v : bool) (st : State) : State :=
  mkState (text st) (selectedTypes st) (results st) v (modelStatus st).

Definition setModelStatus (v : option string) (st : State) : State :=
  mkState (text st) (selectedTypes st) (results st) (loading st) v.

(** [const toggleType = (type) => { setSelectedTypes((prev) => ...) }] *)
Definition toggleType (type : string) (st : State) : State :=
  setSelectedTypes
    (λ prev,
       let next := JSSet.from_iterable prev in
       if JSSet.has next type then JSSet.delete next type else JSSet.add next type)
    st.

(** What the user can do on the screen. *)
Inductive Event : Type :=
| ChangeText (s : string)
| PressChip (i : nat)
| PressDetect
| PressDownload.

Section Handlers.

Context {St : Type}.

(** The native module behind the imported [detect] and [downloadModel]. *)
Variable NativeModule : NativeModuleT St.

(** [String.prototype.trim], the engine's own. *)
Variable trim : string → string.

(** [Platform.OS] *)
Variable OS : string.

(** [const handleDownloadModel = async () => { ... }].  An [await] on a
    promise that is never settled leaves the handler where it stands. *)
Definition handleDownloadModel (st : State) : Bridge St State :=
  let st := setModelStatus (Some "Downloading…") st in
  p <~ downloadModel NativeModule ;;
  match p with
  | Fulfilled success =>
      ret (setModelStatus
             (Some (if success : bool then "Model ready" else "No download needed")) st)
  | Rejected e =>
      ret (setModelStatus (Some (String.append "Error: " (message e))) st)
  | Pending => ret st
  end.

(** [const handleDetect = async () => { ... }].  [!text.trim()] holds
    exactly when the trimmed text is the empty string; [finally] runs on
    both ways out of the [try]. *)
Definition handleDetect (st : State) : Bridge St State :=
  if decide (trim (text st) = "") then ret st
  else
    let st1 := setLoading true st in
    let types := JSSet.to_array (selectedTypes st) in
    let options : Nullable DetectOptions :=
      if (length types <? length ALL_TYPES)%nat
      then defined {["types" := defined types]}
      else undefined in
    p <~ detect NativeModule (text st) options ;;
    match p with
    | Fulfilled entities =>
        ret (setLoading false (setResults entities st1))
    | Rejected e =>
        ret (setLoading false
               (setModelStatus
                  (Some (String.append "Detection error: " (message e)))
                  (setResults [] st1)))
    | Pending => ret st1
    end.

(** The status line: rendered inside the block guarded by
    [Platform.OS === 'android'], and there only when [modelStatus] is
    truthy. *)
Definition status_shown (st : State) : option string :=
  if decide (OS = "android")
  then match modelStatus st with
       | Some s => if decide (s = "") then None else Some s
       | None => None
       end
  else None.

(** The results block: rendered when [results.length > 0]. *)
Definition results_shown (st : State) : option (list DetectedEntity) :=
  if (0 <? length (results st))%nat then Some (results st) else None.

(** One event: the text input calls [setText]; there is one chip per entry
    of [ALL_TYPES], calling [toggleType] with it; the detect button is
    disabled while [loading]; the download button exists on android only. *)
Definition dispatch (ev : Event) (st : State) : Bridge St State :=
  match ev with
  | ChangeText s => ret (setText s st)
  | PressChip i =>
      match ALL_TYPES !! i with
      | Some type => ret (toggleType type st)
      | None => ret st
      end
  | PressDetect => if loading st then ret st else handleDetect st
  | PressDownload =>
      if decide (OS = "android") then handleDownloadModel st else ret st
  end.

(** The events of a session, each handler running to its end before the
    next event. *)
Fixpoint run (evs : list Event) (st : State) : Bridge St State :=
  match evs with
  | [] => ret st
  | ev :: evs' => st' <~ dispatch ev st ;; run evs' st'
  end.

End Handlers.

End App.

(** A stand-in for [trim] on texts without other white space than the ASCII
    blanks: the text with its blanks at both ends removed. *)
Fixpoint drop_blanks (s : string) : string :=
  match s with
  | String a s' => if Ascii.is_space a then drop_blanks s' else s
  | EmptyString => EmptyString
  end.

Definition ascii_trim (s : string) : string :=
  String.rev (drop_blanks (String.rev (drop_blanks s))).

(** * Properties *)

(** ** Sample runs *)

Example detect_link_only :
  detect PatternModule "Visit https://reactnative.dev for docs."
    (defined {["types" := defined ["link"]]}) (boot ()) =
  (Fulfilled [mkEntity "link" "Visit https://reactnative.dev for docs." 0 39 None],
   mkWorld () [CallDetect "Visit https://reactnative.dev for docs." ["link"]]).
Proof. reflexivity. Qed.

Example detect_default_order :
  entity_type <$>
    match (detect PatternModule "john@example.com" null (boot ())).1 with
    | Fulfilled es => es
    | _ => []
    end
  = ["phoneNumber"; "link"; "email"; "address"; "date"].
Proof. reflexivity. Qed.

Example detect_empty_text :
  (detect PatternModule "" undefined (boot ())).1 = Fulfilled [].
Proof. reflexivity. Qed.

Example detect_before_download :
  detect ModelModule "john@example.com" (defined ∅) (boot false) =
  (Rejected model_missing,
   mkWorld false [CallDetect "john@example.com" DEFAULT_TYPES]).
Proof. reflexivity. Qed.

Example detect_native_throws :
  detect BrokenModule "john@example.com" (defined {["types" := null]}) (boot ()) =
  (Rejected model_missing,
   mkWorld () [CallDetect "john@example.com" DEFAULT_TYPES]).
Proof. reflexivity. Qed.

Example downloadModel_then_again :
  (r1 <~ downloadModel ModelModule ;;
   r2 <~ downloadModel ModelModule ;;
   ret (r1, r2)) (boot false) =
  ((Fulfilled true, Fulfilled false),
   mkWorld true [CallDownloadModel; CallDownloadModel]).
Proof. reflexivity. Qed.

(** ** Unfolding the two entry points *)

Section FacadeFacts.

Context {St : Type}.
Variable N : NativeModuleT St.

Lemma detect_run (text : string) (options : Nullable DetectOptions) (w : World St) :
  detect N text options w =
    (async_return (native_detect N text (resolve_types options) (native_state w)).1,
     mkWorld (native_detect N text (resolve_types options) (native_state w)).2
             (bridge_log w ++ [CallDetect text (resolve_types options)])).
Proof.
  unfold detect, bind, call_detect, ret.
  by destruct (native_detect N text (resolve_types options) (native_state w)).
Qed.

Lemma downloadModel_run (w : World St) :
  downloadModel N w =
    (async_return (native_downloadModel N (native_state w)).1,
     mkWorld (native_downloadModel N (native_state w)).2
             (bridge_log w ++ [CallDownloadModel])).
Proof.
  unfold downloadModel, bind, call_downloadModel, ret.
  by destruct (native_downloadModel N (native_state w)).
Qed.

End FacadeFacts.

Lemma resolve_types_omitted : resolve_types undefined = DEFAULT_TYPES.
Proof. reflexivity. Qed.

Lemma resolve_types_null : resolve_types null = DEFAULT_TYPES.
Proof. reflexivity. Qed.

Lemma resolve_types_present (o : DetectOptions) (tys : list string) :
  o !! "types" = Some (defined tys) → resolve_types (defined o) = tys.
Proof.
  intros Hty. unfold resolve_types, optional_chain, get_property.
  by rewrite Hty.
Qed.

Lemma resolve_types_missing (o : DetectOptions) :
  o !! "types" = None ∨ o !! "types" = Some undefined ∨ o !! "types" = Some null →
  resolve_types (defined o) = DEFAULT_TYPES.
Proof.
  unfold resolve_types, optional_chain, get_property.
  by intros [-> | [-> | ->]].
Qed.

(** ** The sample modules meet what is asked of them *)

Lemma sample_scan_tags (text : string) (types : list string) (e : DetectedEntity) :
  e ∈ sample_scan text types → entity_type e ∈ types.
Proof.
  unfold sample_scan. case_decide as Hempty.
  - by intros ?%elem_of_nil.
  - intros (tag & -> & Htag)%list_elem_of_fmap.
    apply list_elem_of_filter in Htag as [Hin _]. exact Hin.
Qed.

Lemma sample_scan_no_types (text : string) : sample_scan text [] = [].
Proof.
  destruct (sample_scan text []) as [|e es] eqn:Hscan; [done|].
  assert (Hin : e ∈ sample_scan text []) by (rewrite Hscan; left).
  apply sample_scan_tags in Hin. by apply elem_of_nil in Hin.
Qed.

Lemma PatternModule_contract : NativeDetectorContract PatternModule.
Proof.
  split.
  - intros text types s es [= <-] e. apply sample_scan_tags.
  - intros text s. by eexists.
Qed.

Lemma PatternModule_no_model : no_model_requirement PatternModule.
Proof. by intros []. Qed.

Lemma PatternModule_deterministic : deterministic_backend PatternModule.
Proof. by intros text types [] []. Qed.

Lemma PatternModule_order_irrelevant : filter_order_irrelevant PatternModule.
Proof.
  intros text types types' s Hperm. cbn. do 2 f_equal.
  unfold sample_scan. case_decide; [done|].
  rewrite (list_filter_iff (λ tag, tag ∈ types) (λ tag, tag ∈ types')); [done|].
  intros tag. by rewrite Hperm.
Qed.

Lemma reversed_types_all_five :
  ["date"; "address"; "email"; "link"; "phoneNumber"]
    ≡ₚ ["phoneNumber"; "link"; "email"; "address"; "date"].
Proof.
  symmetry. exact (Permutation_rev ["phoneNumber"; "link"; "email"; "address"; "date"]).
Qed.

(** ** The filter that reaches the native detector *)

(** C1: for every text, [detect(text, {types: []})] resolves the filter to
    the empty array, which is not the five-type default used when options
    are omitted; the native detector is called with that empty array, and
    with a native detector as the spec describes it the call is fulfilled
    with the empty sequence. *)
Theorem detect_empty_types {St : Type} (N : NativeModuleT St)
    (text : string) (o : DetectOptions) (w : World St) :
  NativeDetectorContract N →
  o !! "types" = Some (defined []) →
  resolve_types (defined o) = [] ∧
  resolve_types (defined o) ≠ resolve_types undefined ∧
  bridge_log (detect N text (defined o) w).2 = bridge_log w ++ [CallDetect text []] ∧
  (detect N text (defined o) w).1 = Fulfilled [].
Proof.
  intros HN Hty.
  pose proof (resolve_types_present o [] Hty) as Hres.
  rewrite detect_run, Hres. cbn [fst snd bridge_log].
  repeat split; [done|].
  destruct (empty_request_completes N HN text (native_state w)) as [es Hes].
  rewrite Hes. cbn [async_return]. f_equal.
  destruct es as [|e es]; [done|].
  pose proof (restricts_to_requested N HN text [] (native_state w) (e :: es) Hes e) as Hin.
  exfalso. eapply elem_of_nil, Hin. left.
Qed.

Lemma detect_empty_types_witness :
  NativeDetectorContract PatternModule ∧
  ({["types" := defined []]} : DetectOptions) !! "types" = Some (defined []) ∧
  detect PatternModule "Call me at (555) 123-4567"
    (defined {["types" := defined []]}) (boot ()) =
    (Fulfilled [], mkWorld () [CallDetect "Call me at (555) 123-4567" []]).
Proof.
  split; [exact PatternModule_contract|].
  assert (Hty : ({["types" := defined []]} : DetectOptions) !! "types"
                = Some (defined [])) by reflexivity.
  split; [exact Hty|].
  destruct (detect_empty_types PatternModule "Call me at (555) 123-4567"
              {["types" := defined []]} (boot ()) PatternModule_contract Hty)
    as (_ & _ & Hlog & Hres).
  destruct (detect PatternModule _ _ _) as [r [[] l]].
  cbn in Hlog, Hres. by subst.
Defined.

(** C2: with options omitted, the native detector is called once, and the
    filter it is given is the array of the five tags phoneNumber, link,
    email, address, date. *)
Theorem detect_omitted_options_filter {St : Type} (N : NativeModuleT St)
    (text : string) (w : World St) :
  bridge_log (detect N text undefined w).2 =
    bridge_log w ++
      [CallDetect text ["phoneNumber"; "link"; "email"; "address"; "date"]].
Proof. by rewrite detect_run. Qed.

(** C7: [detect(text)] with options omitted and [detect(text, {types: [all
    five tags]})] behave alike.  Each makes one native call, on the same
    text; the filter is the five-tag default in the first and the caller's
    array in the second, the same set of tags.  With the tags in the
    default's order the two are the same computation outright: same call,
    same result, same state afterwards.  In another order the result and
    the native state are the same as soon as the native detector takes the
    filter as a set. *)
Theorem detect_omitted_same_as_all_five {St : Type} (N : NativeModuleT St)
    (text : string) (tys : list string) (w : World St) :
  tys ≡ₚ ["phoneNumber"; "link"; "email"; "address"; "date"] →
  bridge_log (detect N text undefined w).2 =
    bridge_log w ++
      [CallDetect text ["phoneNumber"; "link"; "email"; "address"; "date"]] ∧
  bridge_log (detect N text (defined {["types" := defined tys]}) w).2 =
    bridge_log w ++ [CallDetect text tys] ∧
  detect N text undefined w =
    detect N text
      (defined {["types" :=
                   defined ["phoneNumber"; "link"; "email"; "address"; "date"]]}) w ∧
  (filter_order_irrelevant N →
   (detect N text undefined w).1 =
     (detect N text (defined {["types" := defined tys]}) w).1 ∧
   native_state (detect N text undefined w).2 =
     native_state (detect N text (defined {["types" := defined tys]}) w).2).
Proof.
  intros Hperm. rewrite !detect_run.
  rewrite !(resolve_types_present _ _ (lookup_singleton_eq _ _)).
  rewrite resolve_types_omitted. cbn [fst snd bridge_log native_state].
  split_and!; [done..|].
  intros Hset. by rewrite (Hset text tys DEFAULT_TYPES (native_state w) Hperm).
Qed.

Lemma detect_omitted_same_as_all_five_witness :
  ["date"; "address"; "email"; "link"; "phoneNumber"]
    ≡ₚ ["phoneNumber"; "link"; "email"; "address"; "date"] ∧
  bridge_log
    (detect PatternModule "john@example.com"
       (defined {["types" :=
                    defined ["date"; "address"; "email"; "link"; "phoneNumber"]]})
       (boot ())).2 =
    [CallDetect "john@example.com"
       ["date"; "address"; "email"; "link"; "phoneNumber"]] ∧
  (detect PatternModule "john@example.com" undefined (boot ())).1 =
  (detect PatternModule "john@example.com"
     (defined {["types" :=
                  defined ["date"; "address"; "email"; "link"; "phoneNumber"]]})
     (boot ())).1.
Proof.
  split; [exact reversed_types_all_five|].
  destruct (detect_omitted_same_as_all_five PatternModule "john@example.com"
              ["date"; "address"; "email"; "link"; "phoneNumber"] (boot ())
              reversed_types_all_five) as (_ & Hlog & _ & Hset).
  split; [exact Hlog|].
  exact (proj1 (Hset PatternModule_order_irrelevant)).
Defined.

(** C9: an options object that has no [types] property, or has it set to
    [undefined], gives the same computation as omitting the options: in
    both the native detector is called once, on the same text, with the
    five-type default as the filter. *)
Theorem detect_types_absent_same_as_omitted {St : Type} (N : NativeModuleT St)
    (text : string) (o : DetectOptions) (w : World St) :
  o !! "types" = None ∨ o !! "types" = Some undefined →
  detect N text (defined o) w = detect N text undefined w ∧
  resolve_types (defined o) = ["phoneNumber"; "link"; "email"; "address"; "date"] ∧
  bridge_log (detect N text (defined o) w).2 =
    bridge_log w ++
      [CallDetect text ["phoneNumber"; "link"; "email"; "address"; "date"]] ∧
  bridge_log (detect N text undefined w).2 =
    bridge_log w ++
      [CallDetect text ["phoneNumber"; "link"; "email"; "address"; "date"]].
Proof.
  intros Hty.
  assert (Hres : resolve_types (defined o) = DEFAULT_TYPES).
  { apply resolve_types_missing. destruct Hty; auto. }
  split_and!; [|exact Hres|..].
  - by rewrite !detect_run, Hres.
  - by rewrite detect_run, Hres.
  - by rewrite detect_run.
Qed.

Lemma detect_types_absent_same_as_omitted_witness :
  ((∅ : DetectOptions) !! "types" = None ∨
   (∅ : DetectOptions) !! "types" = Some undefined) ∧
  detect ModelModule "see https://reactnative.dev" (defined ∅) (boot true) =
  detect ModelModule "see https://reactnative.dev" undefined (boot true) ∧
  bridge_log
    (detect ModelModule "see https://reactnative.dev" (defined ∅) (boot true)).2 =
    [CallDetect "see https://reactnative.dev"
       ["phoneNumber"; "link"; "email"; "address"; "date"]].
Proof.
  split; [left; reflexivity|].
  destruct (detect_types_absent_same_as_omitted ModelModule
              "see https://reactnative.dev" ∅ (boot true))
    as (Hsame & _ & Hlog & _); [left; reflexivity|].
  split; [exact Hsame | exact Hlog].
Defined.

(** C10: when [options.types] holds an array, that array is what the native
    detector is called with, as it is: same elements in the same order,
    duplicates and unknown tags included. *)
Theorem detect_forwards_types_verbatim {St : Type} (N : NativeModuleT St)
    (text : string) (o : DetectOptions) (tys : list string) (w : World St) :
  o !! "types" = Some (defined tys) →
  bridge_log (detect N text (defined o) w).2 = bridge_log w ++ [CallDetect text tys].
Proof.
  intros Hty. by rewrite detect_run, (resolve_types_present o tys Hty).
Qed.

Lemma detect_forwards_types_verbatim_witness :
  ({["types" := defined ["link"; "email"; "link"; "postcode"]]} : DetectOptions)
    !! "types" = Some (defined ["link"; "email"; "link"; "postcode"]) ∧
  bridge_log (detect PatternModule "mail john@example.com"
                (defined {["types" := defined ["link"; "email"; "link"; "postcode"]]})
                (boot ())).2 =
    [CallDetect "mail john@example.com" ["link"; "email"; "link"; "postcode"]].
Proof.
  split; [reflexivity|].
  apply (detect_forwards_types_verbatim PatternModule "mail john@example.com"
           {["types" := defined ["link"; "email"; "link"; "postcode"]]}
           ["link"; "email"; "link"; "postcode"] (boot ())).
  reflexivity.
Defined.

(** ** What comes back from the native detector *)

(** C4: whatever the options, the promise [detect] returns is the one the
    native detector returns for the resolved filter; a fulfilled sequence
    comes back as the same list, element for element and in the same order,
    nothing removed, reordered or checked. *)
Theorem detect_returns_native_result {St : Type} (N : NativeModuleT St)
    (text : string) (options : Nullable DetectOptions) (w : World St) :
  (detect N text options w).1 =
    async_return (native_detect N text (resolve_types options) (native_state w)).1 ∧
  ∀ es : list DetectedEntity,
    (native_detect N text (resolve_types options) (native_state w)).1
      = Normal (Fulfilled es) →
    (detect N text options w).1 = Fulfilled es.
Proof.
  rewrite detect_run. cbn [fst].
  split; [done|]. by intros es ->.
Qed.

(** C5: whatever the options, [detect] makes one native call, and the string
    in it is the caller's text itself; the result is the native detector's
    answer for that very string, the facade adding nothing of its own. *)
Theorem detect_forwards_text_unaltered {St : Type} (N : NativeModuleT St)
    (text : string) (options : Nullable DetectOptions) (w : World St) :
  ∃ types : list string,
    bridge_log (detect N text options w).2 = bridge_log w ++ [CallDetect text types] ∧
    (detect N text options w).1 =
      async_return (native_detect N text types (native_state w)).1.
Proof.
  exists (resolve_types options). by rewrite detect_run.
Qed.

(** C6: when the native detector reports an error, by rejecting its promise
    or by throwing, [detect] is rejected with that very error, message
    included; the native detector was called once only, and no result list
    comes with the error. *)
Theorem detect_surfaces_native_error {St : Type} (N : NativeModuleT St)
    (text : string) (options : Nullable DetectOptions) (w : World St) (e : Error) :
  (native_detect N text (resolve_types options) (native_state w)).1
    = Normal (Rejected e) ∨
  (native_detect N text (resolve_types options) (native_state w)).1 = Throw e →
  (detect N text options w).1 = Rejected e ∧
  (∀ e', (detect N text options w).1 = Rejected e' → message e' = message e) ∧
  bridge_log (detect N text options w).2 =
    bridge_log w ++ [CallDetect text (resolve_types options)] ∧
  ∀ es, (detect N text options w).1 ≠ Fulfilled es.
Proof.
  intros Herr. rewrite detect_run. cbn [fst snd bridge_log].
  assert (Hres : async_return
            (native_detect N text (resolve_types options) (native_state w)).1
          = Rejected e) by (by destruct Herr as [-> | ->]).
  rewrite Hres. repeat split; [|done].
  by intros e' [= ->].
Qed.

Lemma detect_surfaces_native_error_witness :
  ((native_detect ModelModule "Call me at (555) 123-4567"
      (resolve_types undefined) (native_state (boot false))).1
     = Normal (Rejected model_missing) ∨
   (native_detect ModelModule "Call me at (555) 123-4567"
      (resolve_types undefined) (native_state (boot false))).1
     = Throw model_missing) ∧
  (detect ModelModule "Call me at (555) 123-4567" undefined (boot false)).1
    = Rejected model_missing.
Proof.
  split; [left; reflexivity|].
  apply (detect_surfaces_native_error ModelModule "Call me at (555) 123-4567"
           undefined (boot false) model_missing).
  left; reflexivity.
Defined.

(** C8: with a deterministic native backend, calling [detect] a second time
    with the same arguments gives the same result as the first call; and the
    result never depends on the calls made before, only on the arguments and
    the native side. *)
Theorem detect_repeatable {St : Type} (N : NativeModuleT St)
    (text : string) (options : Nullable DetectOptions) (w : World St) :
  deterministic_backend N →
  (detect N text options (detect N text options w).2).1 = (detect N text options w).1 ∧
  ∀ w' : World St,
    native_state w' = native_state w →
    detect N text options w' =
      ((detect N text options w).1,
       mkWorld (native_state (detect N text options w).2)
               (bridge_log w' ++ [CallDetect text (resolve_types options)])).
Proof.
  intros Hdet. split.
  - rewrite !detect_run. cbn [fst snd native_state]. f_equal. apply Hdet.
  - intros w' Hst. rewrite !detect_run. cbn [fst snd native_state]. by rewrite Hst.
Qed.

Lemma detect_repeatable_witness :
  deterministic_backend PatternModule ∧
  (detect PatternModule "john@example.com" (defined {["types" := defined ["email"]]})
     (detect PatternModule "john@example.com"
        (defined {["types" := defined ["email"]]}) (boot ())).2).1 =
  (detect PatternModule "john@example.com"
     (defined {["types" := defined ["email"]]}) (boot ())).1.
Proof.
  split; [exact PatternModule_deterministic|].
  apply (detect_repeatable PatternModule "john@example.com"
           (defined {["types" := defined ["email"]]}) (boot ())
           PatternModule_deterministic).
Defined.

(** ** Model download *)

(** C3, as the code has it: [downloadModel] calls the native module's
    [downloadModel] once on every platform and returns its promise; on a
    platform with no model requirement, whose native module answers "no
    download needed", the result is therefore [false]. *)
Theorem downloadModel_no_requirement {St : Type} (N : NativeModuleT St) (w : World St) :
  no_model_requirement N →
  (downloadModel N w).1 = Fulfilled false ∧
  bridge_log (downloadModel N w).2 = bridge_log w ++ [CallDownloadModel].
Proof.
  intros Hno. rewrite downloadModel_run. cbn [fst snd bridge_log].
  by rewrite Hno.
Qed.

Lemma downloadModel_no_requirement_witness :
  no_model_requirement PatternModule ∧
  (downloadModel PatternModule (boot ())).1 = Fulfilled false ∧
  bridge_log (downloadModel PatternModule (boot ())).2 = [CallDownloadModel].
Proof.
  split; [exact PatternModule_no_model|].
  apply (downloadModel_no_requirement PatternModule (boot ()) PatternModule_no_model).
Defined.

(** On a platform with no model requirement the native layer is still
    called: the claim that [downloadModel] answers without invoking it fails
    on the sample stateless backend. *)
Lemma downloadModel_reaches_native_layer :
  ¬ (no_model_requirement PatternModule →
     (downloadModel PatternModule (boot ())).1 = Fulfilled false ∧
     bridge_log (downloadModel PatternModule (boot ())).2 = bridge_log (boot ())).
Proof.
  intros Hclaim. destruct (Hclaim PatternModule_no_model) as [_ Hlog].
  vm_compute in Hlog. discriminate Hlog.
Qed.

(** * Further properties of the facade *)

(** X1: when the native [downloadModel] reports an error, by rejecting its
    promise or by throwing, the facade's [downloadModel] is rejected with
    that very error; the native module was called once and nothing else was
    tried. *)
Theorem downloadModel_surfaces_native_error {St : Type} (N : NativeModuleT St)
    (w : World St) (e : Error) :
  (native_downloadModel N (native_state w)).1 = Normal (Rejected e) ∨
  (native_downloadModel N (native_state w)).1 = Throw e →
  (downloadModel N w).1 = Rejected e ∧
  bridge_log (downloadModel N w).2 = bridge_log w ++ [CallDownloadModel] ∧
  ∀ b, (downloadModel N w).1 ≠ Fulfilled b.
Proof.
  intros Herr. rewrite downloadModel_run. cbn [fst snd bridge_log].
  assert (Hres : async_return (native_downloadModel N (native_state w)).1
                 = Rejected e) by (by destruct Herr as [-> | ->]).
  by rewrite Hres.
Qed.

Lemma downloadModel_surfaces_native_error_witness :
  ((native_downloadModel BrokenModule (native_state (boot ()))).1
     = Normal (Rejected model_missing) ∨
   (native_downloadModel BrokenModule (native_state (boot ()))).1
     = Throw model_missing) ∧
  (downloadModel BrokenModule (boot ())).1 = Rejected model_missing.
Proof.
  split; [right; reflexivity|].
  apply (downloadModel_surfaces_native_error BrokenModule (boot ()) model_missing).
  right; reflexivity.
Defined.

(** X2: [detect] reads nothing of its options but the [types] property: two
    option objects that agree on it, whatever else they hold, give the same
    native call, result and state. *)
Theorem detect_reads_only_types {St : Type} (N : NativeModuleT St)
    (text : string) (o o' : DetectOptions) (w : World St) :
  o !! "types" = o' !! "types" →
  detect N text (defined o) w = detect N text (defined o') w.
Proof.
  intros Hty. rewrite !detect_run.
  assert (Hres : resolve_types (defined o) = resolve_types (defined o')).
  { unfold resolve_types, optional_chain, get_property. by rewrite Hty. }
  by rewrite Hres.
Qed.

Lemma detect_reads_only_types_witness :
  ({["types" := defined ["email"]]} : DetectOptions) !! "types" =
  (<["locale" := defined ["fr"]]> {["types" := defined ["email"]]} : DetectOptions)
    !! "types" ∧
  detect PatternModule "john@example.com"
    (defined {["types" := defined ["email"]]}) (boot ()) =
  detect PatternModule "john@example.com"
    (defined (<["locale" := defined ["fr"]]> {["types" := defined ["email"]]}))
    (boot ()).
Proof.
  assert (Hty : ({["types" := defined ["email"]]} : DetectOptions) !! "types" =
     (<["locale" := defined ["fr"]]> {["types" := defined ["email"]]} : DetectOptions)
       !! "types") by reflexivity.
  split; [exact Hty|].
  exact (detect_reads_only_types PatternModule "john@example.com" _ _ (boot ()) Hty).
Defined.

(** X3: [null] is treated as a missing value at both places: [detect(text,
    null)] and [detect(text, {..., types: null})] are the same computation
    as [detect(text)], with the five-type default as the filter. *)
Theorem detect_null_same_as_omitted {St : Type} (N : NativeModuleT St)
    (text : string) (o : DetectOptions) (w : World St) :
  detect N text null w = detect N text undefined w ∧
  detect N text (defined (<["types" := null]> o)) w = detect N text undefined w ∧
  bridge_log (detect N text (defined (<["types" := null]> o)) w).2 =
    bridge_log w ++
      [CallDetect text ["phoneNumber"; "link"; "email"; "address"; "date"]].
Proof.
  assert (Hres : resolve_types (defined (<["types" := null]> o)) = DEFAULT_TYPES).
  { apply resolve_types_missing. right; right. apply lookup_insert_eq. }
  rewrite !detect_run, Hres, resolve_types_null, resolve_types_omitted. done.
Qed.

(** * The example application *)

(** ** Sets of strings *)

Lemma JSSet_elem_of_add (s : list string) (x y : string) :
  y ∈ JSSet.add s x ↔ y ∈ s ∨ y = x.
Proof.
  unfold JSSet.add, JSSet.has. case_bool_decide as Hx.
  - split; [by left|]. by intros [? | ->].
  - by rewrite elem_of_app, list_elem_of_singleton.
Qed.

Lemma JSSet_NoDup_add (s : list string) (x : string) :
  NoDup s → NoDup (JSSet.add s x).
Proof.
  intros Hs. unfold JSSet.add, JSSet.has. case_bool_decide as Hx; [done|].
  apply NoDup_app. split_and!; [done| |apply NoDup_singleton].
  intros y Hy ->%list_elem_of_singleton. by apply Hx.
Qed.

Lemma JSSet_elem_of_delete (s : list string) (x y : string) :
  y ∈ JSSet.delete s x ↔ y ∈ s ∧ y ≠ x.
Proof. unfold JSSet.delete. rewrite list_elem_of_filter. tauto. Qed.

Lemma JSSet_NoDup_delete (s : list string) (x : string) :
  NoDup s → NoDup (JSSet.delete s x).
Proof. apply NoDup_filter. Qed.

Lemma JSSet_delete_absent (s : list string) (x : string) :
  x ∉ s → JSSet.delete s x = s.
Proof.
  unfold JSSet.delete. induction s as [|y s IH]; [done|].
  intros Hx. apply not_elem_of_cons in Hx as [Hne Hx].
  rewrite filter_cons_True by done. by rewrite IH.
Qed.

Lemma JSSet_foldl_add_fresh (acc l : list string) :
  NoDup (acc ++ l) → foldl JSSet.add acc l = acc ++ l.
Proof.
  revert acc. induction l as [|x l IH]; intros acc Hnd; cbn [foldl].
  - by rewrite app_nil_r.
  - assert (Hx : x ∉ acc).
    { apply NoDup_app in Hnd as (_ & Hdisj & _). intros Hin.
      apply (Hdisj x Hin). left. }
    assert (Hadd : JSSet.add acc x = acc ++ [x]).
    { unfold JSSet.add, JSSet.has. by case_bool_decide. }
    rewrite Hadd, IH; rewrite <- app_assoc; done.
Qed.

Lemma JSSet_from_iterable_NoDup (l : list string) :
  NoDup l → JSSet.from_iterable l = l.
Proof. intros Hnd. by apply (JSSet_foldl_add_fresh [] l). Qed.

Lemma JSSet_elem_of_foldl_add (acc l : list string) (y : string) :
  y ∈ foldl JSSet.add acc l ↔ y ∈ acc ∨ y ∈ l.
Proof.
  revert acc. induction l as [|x l IH]; intros acc; cbn [foldl].
  - rewrite elem_of_nil. tauto.
  - rewrite IH, JSSet_elem_of_add, elem_of_cons. tauto.
Qed.

Lemma JSSet_elem_of_from_iterable (l : list string) (y : string) :
  y ∈ JSSet.from_iterable l ↔ y ∈ l.
Proof.
  unfold JSSet.from_iterable. rewrite JSSet_elem_of_foldl_add, elem_of_nil. tauto.
Qed.

Lemma JSSet_NoDup_foldl_add (acc l : list string) :
  NoDup acc → NoDup (foldl JSSet.add acc l).
Proof.
  revert acc. induction l as [|x l IH]; intros acc Hnd; cbn [foldl]; [done|].
  by apply IH, JSSet_NoDup_add.
Qed.

Lemma JSSet_NoDup_from_iterable (l : list string) : NoDup (JSSet.from_iterable l).
Proof. apply JSSet_NoDup_foldl_add, NoDup_nil_2. Qed.

(** ** Selecting types *)

Lemma toggleType_selected (type : string) (st : App.State) :
  NoDup (App.selectedTypes st) →
  App.selectedTypes (App.toggleType type st) =
    if bool_decide (type ∈ App.selectedTypes st)
    then JSSet.delete (App.selectedTypes st) type
    else App.selectedTypes st ++ [type].
Proof.
  intros Hnd. unfold App.toggleType, App.setSelectedTypes. cbn [App.selectedTypes].
  rewrite (JSSet_from_iterable_NoDup _ Hnd).
  unfold JSSet.has, JSSet.add, JSSet.has.
  by repeat case_bool_decide.
Qed.

Lemma toggleType_NoDup (type : string) (st : App.State) :
  NoDup (App.selectedTypes (App.toggleType type st)).
Proof.
  unfold App.toggleType, App.setSelectedTypes. cbn [App.selectedTypes].
  pose proof (JSSet_NoDup_from_iterable (App.selectedTypes st)) as Hnd.
  destruct (JSSet.has _ type).
  - by apply JSSet_NoDup_delete.
  - by apply JSSet_NoDup_add.
Qed.

Lemma toggleType_elem_of (type : string) (st : App.State) (x : string) :
  x ∈ App.selectedTypes (App.toggleType type st) ↔
    (x ≠ type ∧ x ∈ App.selectedTypes st) ∨
    (x = type ∧ type ∉ App.selectedTypes st).
Proof.
  unfold App.toggleType, App.setSelectedTypes. cbn [App.selectedTypes].
  unfold JSSet.has. case_bool_decide as Hin.
  - rewrite JSSet_elem_of_delete, JSSet_elem_of_from_iterable.
    rewrite JSSet_elem_of_from_iterable in Hin. intuition congruence.
  - rewrite JSSet_elem_of_add, JSSet_elem_of_from_iterable.
    rewrite JSSet_elem_of_from_iterable in Hin.
    destruct (decide (x = type)) as [-> | Hne]; intuition congruence.
Qed.

(** X4: [toggleType] flips the membership of the given type and of no
    other: afterwards a type is selected exactly when it is another type
    that was selected before, or the given type and was not; text, results,
    loading flag and status are left alone. *)
Theorem toggleType_flips_one (type : string) (st : App.State) :
  (∀ x, x ∈ App.selectedTypes (App.toggleType type st) ↔
        (x ≠ type ∧ x ∈ App.selectedTypes st) ∨
        (x = type ∧ type ∉ App.selectedTypes st)) ∧
  App.text (App.toggleType type st) = App.text st ∧
  App.results (App.toggleType type st) = App.results st ∧
  App.loading (App.toggleType type st) = App.loading st ∧
  App.modelStatus (App.toggleType type st) = App.modelStatus st.
Proof.
  split; [|done]. intros x. apply toggleType_elem_of.
Qed.

(** X5: toggling the same type twice gives back the same selection as a
    set, but not always the same order: a type that was not selected leaves
    the set as it was, a type that was selected ends up last in insertion
    order. *)
Theorem toggleType_twice (type : string) (st : App.State) :
  NoDup (App.selectedTypes st) →
  App.selectedTypes (App.toggleType type (App.toggleType type st)) =
    (if bool_decide (type ∈ App.selectedTypes st)
     then JSSet.delete (App.selectedTypes st) type ++ [type]
     else App.selectedTypes st) ∧
  ∀ x, x ∈ App.selectedTypes (App.toggleType type (App.toggleType type st)) ↔
       x ∈ App.selectedTypes st.
Proof.
  intros Hnd.
  assert (Heq : App.selectedTypes (App.toggleType type (App.toggleType type st)) =
    (if bool_decide (type ∈ App.selectedTypes st)
     then JSSet.delete (App.selectedTypes st) type ++ [type]
     else App.selectedTypes st)).
  { rewrite (toggleType_selected type (App.toggleType type st))
      by apply toggleType_NoDup.
    rewrite (toggleType_selected type st Hnd).
    destruct (bool_decide (type ∈ App.selectedTypes st)) eqn:Hb.
    - rewrite bool_decide_eq_false_2; [done|].
      rewrite JSSet_elem_of_delete. tauto.
    - apply bool_decide_eq_false in Hb as Hin.
      rewrite bool_decide_eq_true_2 by (apply elem_of_app; right; left).
      unfold JSSet.delete. rewrite filter_app.
      fold (JSSet.delete (App.selectedTypes st) type).
      rewrite (JSSet_delete_absent _ _ Hin).
      rewrite filter_cons_False by tauto. by rewrite filter_nil, app_nil_r. }
  split; [exact Heq|].
  intros x. rewrite Heq. case_bool_decide as Hin; [|done].
  rewrite elem_of_app, JSSet_elem_of_delete, list_elem_of_singleton.
  destruct (decide (x = type)) as [-> | Hne]; intuition congruence.
Qed.

Lemma toggleType_twice_witness :
  NoDup (App.selectedTypes App.initial_state) ∧
  App.selectedTypes (App.toggleType "link" (App.toggleType "link" App.initial_state)) =
    ["phoneNumber"; "email"; "address"; "date"; "link"].
Proof.
  assert (Hnd : NoDup (App.selectedTypes App.initial_state))
    by apply JSSet_NoDup_from_iterable.
  split; [exact Hnd|].
  exact (proj1 (toggleType_twice "link" App.initial_state Hnd)).
Defined.

(** ** Pressing Detect *)

Lemma selection_full (sel : list string) :
  NoDup sel →
  (∀ x, x ∈ sel → x ∈ App.ALL_TYPES) →
  ¬ (length sel < length App.ALL_TYPES) →
  sel ≡ₚ App.ALL_TYPES.
Proof.
  intros Hnd Hsub Hlen.
  apply submseteq_length_Permutation.
  - by apply NoDup_submseteq.
  - lia.
Qed.

Section HandlerFacts.

Context {St : Type}.
Variable N : NativeModuleT St.
Variable trim : string → string.

(** The filter [handleDetect] has [detect] resolve: the selection when
    fewer types are selected than there are, the facade's default
    otherwise. *)
Lemma handleDetect_filter (sel : list string) :
  resolve_types
    (if (length (JSSet.to_array sel) <? length App.ALL_TYPES)%nat
     then defined {["types" := defined (JSSet.to_array sel)]}
     else undefined)
  = if (length sel <? length App.ALL_TYPES)%nat then sel else DEFAULT_TYPES.
Proof.
  unfold JSSet.to_array. destruct (length sel <? length App.ALL_TYPES)%nat.
  - apply resolve_types_present, lookup_singleton_eq.
  - reflexivity.
Qed.

Lemma handleDetect_run (st : App.State) (w : World St) :
  trim (App.text st) ≠ "" →
  App.handleDetect N trim st w =
    let types := if (length (App.selectedTypes st) <? length App.ALL_TYPES)%nat
                 then App.selectedTypes st else DEFAULT_TYPES in
    let r := native_detect N (App.text st) types (native_state w) in
    (match async_return r.1 with
     | Fulfilled entities =>
         App.mkState (App.text st) (App.selectedTypes st) entities false
           (App.modelStatus st)
     | Rejected e =>
         App.mkState (App.text st) (App.selectedTypes st) [] false
           (Some (String.append "Detection error: " (message e)))
     | Pending =>
         App.mkState (App.text st) (App.selectedTypes st) (App.results st) true
           (App.modelStatus st)
     end,
     mkWorld r.2 (bridge_log w ++ [CallDetect (App.text st) types])).
Proof.
  intros Htext. unfold App.handleDetect.
  destruct (decide (trim (App.text st) = "")) as [|_]; [done|].
  unfold bind at 1. rewrite detect_run, handleDetect_filter. cbn zeta.
  by destruct (async_return _).
Qed.

Lemma handleDetect_skip (st : App.State) (w : World St) :
  trim (App.text st) = "" → App.handleDetect N trim st w = (st, w).
Proof.
  intros Htext. unfold App.handleDetect.
  by destruct (decide (trim (App.text st) = "")).
Qed.

Lemma handleDetect_selection (st : App.State) (w : World St) :
  App.selectedTypes (App.handleDetect N trim st w).1 = App.selectedTypes st.
Proof.
  destruct (decide (trim (App.text st) = "")) as [Hblank | Htext].
  - by rewrite (handleDetect_skip st w Hblank).
  - rewrite (handleDetect_run st w Htext). cbn zeta. cbn [fst].
    by destruct (async_return _).
Qed.

Lemma handleDetect_failure_state (st : App.State) (w : World St)
    (types : list string) (e : Error) :
  trim (App.text st) ≠ "" →
  bridge_log (App.handleDetect N trim st w).2 =
    bridge_log w ++ [CallDetect (App.text st) types] →
  (native_detect N (App.text st) types (native_state w)).1 = Normal (Rejected e) ∨
  (native_detect N (App.text st) types (native_state w)).1 = Throw e →
  (App.handleDetect N trim st w).1 =
    App.mkState (App.text st) (App.selectedTypes st) [] false
      (Some (String.append "Detection error: " (message e))).
Proof.
  intros Htext Hlog Herr. rewrite (handleDetect_run st w Htext) in *.
  cbn zeta in *. cbn [fst snd bridge_log] in *.
  set (sent := if (length (App.selectedTypes st) <? length App.ALL_TYPES)%nat
               then App.selectedTypes st else DEFAULT_TYPES) in *.
  apply app_inv_head in Hlog. injection Hlog as Hsent. rewrite Hsent.
  by destruct Herr as [-> | ->].
Qed.

(** X6: on a text that trims to nothing, [handleDetect] returns at once:
    the native module is not called and no state changes, the loading flag
    included. *)
Theorem handleDetect_blank_text (st : App.State) (w : World St) :
  trim (App.text st) = "" →
  App.handleDetect N trim st w = (st, w).
Proof.
  intros Htext. unfold App.handleDetect.
  by destruct (decide (trim (App.text st) = "")).
Qed.

(** X7: on any other text, with a selection made of known types,
    [handleDetect] has the native detector called once, on the text as
    typed, with a filter that holds exactly the selected types, each once:
    the selection itself, in insertion order, when fewer than five are
    selected (none at all included), and the facade's default order when
    all five are. *)
Theorem handleDetect_sends_selection (st : App.State) (w : World St) :
  trim (App.text st) ≠ "" →
  NoDup (App.selectedTypes st) →
  (∀ x, x ∈ App.selectedTypes st → x ∈ App.ALL_TYPES) →
  ∃ types : list string,
    bridge_log (App.handleDetect N trim st w).2 =
      bridge_log w ++ [CallDetect (App.text st) types] ∧
    types ≡ₚ App.selectedTypes st ∧
    (length (App.selectedTypes st) < 5 → types = App.selectedTypes st) ∧
    (length (App.selectedTypes st) = 5 →
     types = ["phoneNumber"; "link"; "email"; "address"; "date"]).
Proof.
  intros Htext Hnd Hsub. rewrite (handleDetect_run st w Htext). cbn zeta.
  cbn [snd bridge_log]. eexists. split; [reflexivity|].
  destruct (Nat.ltb_spec (length (App.selectedTypes st)) (length App.ALL_TYPES))
    as [Hlt | Hge]; cbn [length App.ALL_TYPES] in *.
  - split_and!; [done|done|]. lia.
  - split_and!; [|lia|done].
    symmetry. apply selection_full; [done|done|]. cbn [length App.ALL_TYPES]. lia.
Qed.

(** X8: when the native detector answers the call that was made with an
    error, by rejecting or by throwing, [handleDetect] empties the results,
    puts "Detection error: " followed by the error's message in the status,
    and clears the loading flag; text and selection stay, and the call is
    not made again. *)
Theorem handleDetect_failure (st : App.State) (w : World St)
    (types : list string) (e : Error) :
  trim (App.text st) ≠ "" →
  bridge_log (App.handleDetect N trim st w).2 =
    bridge_log w ++ [CallDetect (App.text st) types] →
  (native_detect N (App.text st) types (native_state w)).1 = Normal (Rejected e) ∨
  (native_detect N (App.text st) types (native_state w)).1 = Throw e →
  (App.handleDetect N trim st w).1 =
    App.mkState (App.text st) (App.selectedTypes st) [] false
      (Some (String.append "Detection error: " (message e))) ∧
  length (bridge_log (App.handleDetect N trim st w).2) = S (length (bridge_log w)).
Proof.
  intros Htext Hlog Herr.
  split; [by apply (handleDetect_failure_state st w types e)|].
  rewrite Hlog, length_app. cbn [length]. lia.
Qed.

(** X9: when the native detector answers the call that was made with a
    list of entities, [handleDetect] shows that list as it is and clears
    the loading flag; the status is not touched, so a message left by an
    earlier failure stays. *)
Theorem handleDetect_success (st : App.State) (w : World St)
    (types : list string) (entities : list DetectedEntity) :
  trim (App.text st) ≠ "" →
  bridge_log (App.handleDetect N trim st w).2 =
    bridge_log w ++ [CallDetect (App.text st) types] →
  (native_detect N (App.text st) types (native_state w)).1
    = Normal (Fulfilled entities) →
  (App.handleDetect N trim st w).1 =
    App.mkState (App.text st) (App.selectedTypes st) entities false
      (App.modelStatus st).
Proof.
  intros Htext Hlog Hnative. rewrite (handleDetect_run st w Htext) in *.
  cbn zeta in *. cbn [fst snd bridge_log] in *.
  set (sent := if (length (App.selectedTypes st) <? length App.ALL_TYPES)%nat
               then App.selectedTypes st else DEFAULT_TYPES) in *.
  apply app_inv_head in Hlog. injection Hlog as Hsent.
  by rewrite Hsent, Hnative.
Qed.

(** X10: whatever happens, [handleDetect] changes neither the text nor the
    selection, and what it asks of the native module is nothing, or one
    [detect] on the text as typed; it never asks for a model download. *)
Theorem handleDetect_frame (st : App.State) (w : World St) :
  App.text (App.handleDetect N trim st w).1 = App.text st ∧
  App.selectedTypes (App.handleDetect N trim st w).1 = App.selectedTypes st ∧
  (bridge_log (App.handleDetect N trim st w).2 = bridge_log w ∨
   ∃ types, bridge_log (App.handleDetect N trim st w).2 =
              bridge_log w ++ [CallDetect (App.text st) types]).
Proof.
  destruct (decide (trim (App.text st) = "")) as [Hblank | Htext].
  - rewrite (handleDetect_skip st w Hblank). auto.
  - rewrite (handleDetect_run st w Htext). cbn zeta. cbn [fst snd bridge_log].
    split_and!; [by destruct (async_return _)..|].
    right. by eexists.
Qed.

End HandlerFacts.

Lemma handleDetect_blank_text_witness :
  ascii_trim (App.text (App.setText "  " App.initial_state)) = "" ∧
  App.handleDetect PatternModule ascii_trim (App.setText "  " App.initial_state)
    (boot ()) = (App.setText "  " App.initial_state, boot ()).
Proof.
  split; [reflexivity|].
  apply (handleDetect_blank_text PatternModule ascii_trim
           (App.setText "  " App.initial_state) (boot ())).
  reflexivity.
Defined.

Lemma initial_selection_NoDup : NoDup (App.selectedTypes App.initial_state).
Proof. apply JSSet_NoDup_from_iterable. Qed.

Lemma initial_selection_known (x : string) :
  x ∈ App.selectedTypes App.initial_state → x ∈ App.ALL_TYPES.
Proof. apply JSSet_elem_of_from_iterable. Qed.

Lemma sample_text_not_blank : ascii_trim (App.text App.initial_state) ≠ "".
Proof. by vm_compute. Qed.

Lemma handleDetect_sends_selection_witness :
  ascii_trim (App.text App.initial_state) ≠ "" ∧
  NoDup (App.selectedTypes App.initial_state) ∧
  (∀ x, x ∈ App.selectedTypes App.initial_state → x ∈ App.ALL_TYPES) ∧
  ∃ types : list string,
    bridge_log (App.handleDetect PatternModule ascii_trim App.initial_state
                  (boot ())).2 =
      bridge_log (boot ()) ++ [CallDetect (App.text App.initial_state) types] ∧
    types ≡ₚ App.selectedTypes App.initial_state.
Proof.
  split_and!;
    [exact sample_text_not_blank | exact initial_selection_NoDup
    | exact initial_selection_known |].
  destruct (handleDetect_sends_selection PatternModule ascii_trim App.initial_state
              (boot ()) sample_text_not_blank initial_selection_NoDup
              initial_selection_known) as (types & Hlog & Hperm & _).
  exists types. by split.
Defined.

Lemma ModelModule_fails_without_model (text : string) (types : list string) :
  (native_detect ModelModule text types false).1 = Normal (Rejected model_missing) ∨
  (native_detect ModelModule text types false).1 = Throw model_missing.
Proof. by left. Qed.

Lemma handleDetect_failure_witness :
  ascii_trim (App.text App.initial_state) ≠ "" ∧
  bridge_log
    (App.handleDetect ModelModule ascii_trim App.initial_state (boot false)).2 =
    bridge_log (boot false) ++
      [CallDetect (App.text App.initial_state)
         ["phoneNumber"; "link"; "email"; "address"; "date"]] ∧
  ((native_detect ModelModule (App.text App.initial_state)
      ["phoneNumber"; "link"; "email"; "address"; "date"]
      (native_state (boot false))).1 = Normal (Rejected model_missing) ∨
   (native_detect ModelModule (App.text App.initial_state)
      ["phoneNumber"; "link"; "email"; "address"; "date"]
      (native_state (boot false))).1 = Throw model_missing) ∧
  App.modelStatus
    (App.handleDetect ModelModule ascii_trim App.initial_state (boot false)).1 =
    Some "Detection error: Entity extraction model is not available".
Proof.
  split_and!; [exact sample_text_not_blank | reflexivity | left; reflexivity |].
  destruct (handleDetect_failure ModelModule ascii_trim App.initial_state
              (boot false) ["phoneNumber"; "link"; "email"; "address"; "date"]
              model_missing sample_text_not_blank eq_refl
              (or_introl eq_refl))
    as [Hst _].
  rewrite Hst. reflexivity.
Defined.

Lemma handleDetect_success_witness :
  ascii_trim "john@example.com" ≠ "" ∧
  App.handleDetect PatternModule ascii_trim
    (App.mkState "john@example.com" ["email"] [] false (Some "Detection error: x"))
    (boot ()) =
  (App.mkState "john@example.com" ["email"]
     [mkEntity "email" "john@example.com" 0 16 None] false
     (Some "Detection error: x"),
   mkWorld () [CallDetect "john@example.com" ["email"]]).
Proof.
  assert (Htext : ascii_trim "john@example.com" ≠ "") by (by vm_compute).
  split; [exact Htext|].
  pose proof (handleDetect_success PatternModule ascii_trim
    (App.mkState "john@example.com" ["email"] [] false (Some "Detection error: x"))
    (boot ()) ["email"] [mkEntity "email" "john@example.com" 0 16 None]
    Htext eq_refl eq_refl) as Hst.
  destruct (App.handleDetect PatternModule ascii_trim _ _) as [st' w'] eqn:Hrun.
  cbn [fst] in Hst. subst st'.
  f_equal. apply (f_equal snd) in Hrun. cbn [snd] in Hrun. by rewrite <- Hrun.
Defined.

(** ** Pressing Download *)

Section SessionFacts.

Context {St : Type}.
Variable N : NativeModuleT St.
Variable trim : string → string.
Variable OS : string.

Lemma handleDownloadModel_run (st : App.State) (w : World St) :
  App.handleDownloadModel N st w =
    let r := native_downloadModel N (native_state w) in
    (App.setModelStatus
       (Some match async_return r.1 with
             | Fulfilled true => "Model ready"
             | Fulfilled false => "No download needed"
             | Rejected e => String.append "Error: " (message e)
             | Pending => "Downloading…"
             end) st,
     mkWorld r.2 (bridge_log w ++ [CallDownloadModel])).
Proof.
  unfold App.handleDownloadModel, bind. rewrite downloadModel_run. cbn zeta.
  by destruct (async_return _) as [[] | |].
Qed.

(** X11: [handleDownloadModel] asks the native module for the download
    once, and changes nothing on the screen but the status: it reads
    "Model ready" exactly when the native module reported a fresh download,
    "No download needed" exactly when it reported none, and starts with
    "Error: " followed by the message when the download failed. *)
Theorem handleDownloadModel_outcome (st : App.State) (w : World St) :
  bridge_log (App.handleDownloadModel N st w).2 =
    bridge_log w ++ [CallDownloadModel] ∧
  App.text (App.handleDownloadModel N st w).1 = App.text st ∧
  App.selectedTypes (App.handleDownloadModel N st w).1 = App.selectedTypes st ∧
  App.results (App.handleDownloadModel N st w).1 = App.results st ∧
  App.loading (App.handleDownloadModel N st w).1 = App.loading st ∧
  (∀ b : bool,
     App.modelStatus (App.handleDownloadModel N st w).1 =
       Some (if b then "Model ready" else "No download needed")
     ↔ (downloadModel N w).1 = Fulfilled b) ∧
  (∀ e, (downloadModel N w).1 = Rejected e →
        App.modelStatus (App.handleDownloadModel N st w).1 =
          Some (String.append "Error: " (message e))).
Proof.
  rewrite handleDownloadModel_run, downloadModel_run. cbn zeta.
  cbn [fst snd bridge_log App.setModelStatus App.text App.selectedTypes
       App.results App.loading App.modelStatus].
  split_and!; try done.
  - intros b.
    destruct (async_return _) as [[] | e |]; destruct b; cbn [String.append];
      split; intros Heq; try done; try discriminate Heq.
  - by intros e ->.
Qed.

(** ** A whole session *)

Lemma dispatch_keeps_selection_known (ev : App.Event) (st : App.State) (w : World St) :
  NoDup (App.selectedTypes st) ∧ (∀ x, x ∈ App.selectedTypes st → x ∈ App.ALL_TYPES) →
  NoDup (App.selectedTypes (App.dispatch N trim OS ev st w).1) ∧
  (∀ x, x ∈ App.selectedTypes (App.dispatch N trim OS ev st w).1 → x ∈ App.ALL_TYPES).
Proof.
  intros [Hnd Hsub]. destruct ev as [s | i | |]; cbn [App.dispatch].
  - done.
  - destruct (App.ALL_TYPES !! i) as [type|] eqn:Hi; [|done].
    cbn [ret fst]. split; [apply toggleType_NoDup|].
    intros x Hx. apply toggleType_elem_of in Hx as [[_ Hx] | [-> _]]; [auto|].
    by eapply list_elem_of_lookup_2.
  - destruct (App.loading st); [done|].
    by rewrite (handleDetect_selection N trim st w).
  - destruct (decide (OS = "android")); [|done].
    by rewrite handleDownloadModel_run.
Qed.

(** X12: from the first screen on, whatever the user does, the selection
    holds known types only, each once, so never more than five. *)
Theorem run_keeps_selection_known (evs : list App.Event) (w : World St) :
  NoDup (App.selectedTypes (App.run N trim OS evs App.initial_state w).1) ∧
  (∀ x, x ∈ App.selectedTypes (App.run N trim OS evs App.initial_state w).1 →
        x ∈ App.ALL_TYPES) ∧
  (length (App.selectedTypes (App.run N trim OS evs App.initial_state w).1) ≤ 5)%nat.
Proof.
  assert (Hgen : ∀ evs st w,
    NoDup (App.selectedTypes st) ∧
    (∀ x, x ∈ App.selectedTypes st → x ∈ App.ALL_TYPES) →
    NoDup (App.selectedTypes (App.run N trim OS evs st w).1) ∧
    (∀ x, x ∈ App.selectedTypes (App.run N trim OS evs st w).1 →
          x ∈ App.ALL_TYPES)).
  { clear evs w. induction evs as [|ev evs IH]; intros st w Hwf; [done|].
    cbn [App.run]. unfold bind.
    pose proof (dispatch_keeps_selection_known ev st w Hwf) as Hstep.
    destruct (App.dispatch N trim OS ev st w) as [st' w']. by apply IH. }
  destruct (Hgen evs App.initial_state w) as [Hnd Hsub].
  { split; [exact initial_selection_NoDup | exact initial_selection_known]. }
  split_and!; [done..|].
  change 5 with (length App.ALL_TYPES).
  by apply submseteq_length, NoDup_submseteq.
Qed.

End SessionFacts.

Lemma DEFAULT_TYPES_NoDup : NoDup DEFAULT_TYPES.
Proof. compute_done. Qed.

Section SessionCalls.

Context {St : Type}.
Variable N : NativeModuleT St.
Variable trim : string → string.
Variable OS : string.

Lemma dispatch_native_calls (ev : App.Event) (st : App.State) (w : World St) :
  NoDup (App.selectedTypes st) ∧ (∀ x, x ∈ App.selectedTypes st → x ∈ App.ALL_TYPES) →
  ∃ calls : list NativeCall,
    bridge_log (App.dispatch N trim OS ev st w).2 = bridge_log w ++ calls ∧
    (length calls ≤ 1)%nat ∧
    ∀ c, c ∈ calls →
      match c with
      | CallDetect text types =>
          trim text ≠ "" ∧ NoDup types ∧ ∀ x, x ∈ types → x ∈ App.ALL_TYPES
      | CallDownloadModel => OS = "android"
      end.
Proof.
  intros [Hnd Hsub].
  assert (Hnone : ∀ w' : World St, bridge_log w' = bridge_log w →
    ∃ calls : list NativeCall,
      bridge_log w' = bridge_log w ++ calls ∧ (length calls ≤ 1)%nat ∧
      ∀ c, c ∈ calls →
        match c with
        | CallDetect text types =>
            trim text ≠ "" ∧ NoDup types ∧ ∀ x, x ∈ types → x ∈ App.ALL_TYPES
        | CallDownloadModel => OS = "android"
        end).
  { intros w' Hw'. exists []. rewrite app_nil_r. split_and!; [done|cbn; lia|].
    by intros c ?%elem_of_nil. }
  destruct ev as [s | i | |]; cbn [App.dispatch].
  - by apply Hnone.
  - destruct (App.ALL_TYPES !! i); by apply Hnone.
  - destruct (App.loading st); [by apply Hnone|].
    destruct (decide (trim (App.text st) = "")) as [Hblank | Htext].
    + rewrite (handleDetect_skip N trim st w Hblank). by apply Hnone.
    + rewrite (handleDetect_run N trim st w Htext). cbn zeta. cbn [snd bridge_log].
      eexists. split_and!; [reflexivity|cbn; lia|].
      intros c ->%list_elem_of_singleton. split_and!; [done|..].
      * destruct (_ <? _)%nat; [done | exact DEFAULT_TYPES_NoDup].
      * destruct (_ <? _)%nat; [done | by intros x].
  - destruct (decide (OS = "android")) as [Handroid|]; [|by apply Hnone].
    rewrite handleDownloadModel_run. cbn zeta. cbn [snd bridge_log].
    eexists. split_and!; [reflexivity|cbn; lia|].
    by intros c ->%list_elem_of_singleton.
Qed.

Lemma run_snoc (evs : list App.Event) (ev : App.Event) (st : App.State) (w : World St) :
  App.run N trim OS (evs ++ [ev]) st w =
    App.dispatch N trim OS ev (App.run N trim OS evs st w).1
      (App.run N trim OS evs st w).2.
Proof.
  revert st w. induction evs as [|ev' evs IH]; intros st w.
  - cbn [app App.run]. unfold bind, ret. cbn [fst snd].
    by destruct (App.dispatch N trim OS ev st w).
  - cbn [app App.run]. unfold bind.
    destruct (App.dispatch N trim OS ev' st w) as [st' w']. apply IH.
Qed.

Lemma run_selection_known_from (evs : list App.Event) (st : App.State) (w : World St) :
  NoDup (App.selectedTypes st) ∧ (∀ x, x ∈ App.selectedTypes st → x ∈ App.ALL_TYPES) →
  NoDup (App.selectedTypes (App.run N trim OS evs st w).1) ∧
  (∀ x, x ∈ App.selectedTypes (App.run N trim OS evs st w).1 → x ∈ App.ALL_TYPES).
Proof.
  revert st w. induction evs as [|ev evs IH]; intros st w Hwf; [done|].
  cbn [App.run]. unfold bind.
  pose proof (dispatch_keeps_selection_known N trim OS ev st w Hwf) as Hstep.
  destruct (App.dispatch N trim OS ev st w) as [st' w']. by apply IH.
Qed.

(** X13: from the first screen on, whatever the user does: the native
    calls of a session are no more than its events, and one more event at
    the end of any session adds one native call at most to those the
    session made; each [detect] that reaches the native module carries a
    text that does not trim to nothing and a filter of known types without
    duplicates, and [downloadModel] reaches it on android only. *)
Theorem run_native_calls (evs : list App.Event) (ev : App.Event) (w : World St) :
  (∃ calls : list NativeCall,
     bridge_log (App.run N trim OS evs App.initial_state w).2 = bridge_log w ++ calls ∧
     (length calls ≤ length evs)%nat ∧
     ∀ c, c ∈ calls →
       match c with
       | CallDetect text types =>
           trim text ≠ "" ∧ NoDup types ∧ ∀ x, x ∈ types → x ∈ App.ALL_TYPES
       | CallDownloadModel => OS = "android"
       end) ∧
  (∃ calls : list NativeCall,
     bridge_log (App.run N trim OS (evs ++ [ev]) App.initial_state w).2 =
       bridge_log (App.run N trim OS evs App.initial_state w).2 ++ calls ∧
     (length calls ≤ 1)%nat ∧
     ∀ c, c ∈ calls →
       match c with
       | CallDetect text types =>
           trim text ≠ "" ∧ NoDup types ∧ ∀ x, x ∈ types → x ∈ App.ALL_TYPES
       | CallDownloadModel => OS = "android"
       end).
Proof.
  assert (Hwf : NoDup (App.selectedTypes App.initial_state) ∧
                ∀ x, x ∈ App.selectedTypes App.initial_state → x ∈ App.ALL_TYPES).
  { split; [exact initial_selection_NoDup | exact initial_selection_known]. }
  split.
  - clear ev. revert Hwf. generalize App.initial_state as st. revert w.
    induction evs as [|ev evs IH]; intros w st Hwf.
    + exists []. cbn [App.run ret snd length]. rewrite app_nil_r.
      split_and!; [done|lia|]. by intros c ?%elem_of_nil.
    + cbn [App.run]. unfold bind.
      destruct (dispatch_native_calls ev st w Hwf) as (c1 & Hlog1 & Hlen1 & Hgood1).
      pose proof (dispatch_keeps_selection_known N trim OS ev st w Hwf) as Hwf'.
      destruct (App.dispatch N trim OS ev st w) as [st' w']. cbn [fst snd] in *.
      destruct (IH w' st' Hwf') as (c2 & Hlog2 & Hlen2 & Hgood2).
      exists (c1 ++ c2). rewrite Hlog2, Hlog1, <- app_assoc.
      split_and!; [done| |].
      * rewrite length_app. cbn [length]. lia.
      * intros c [Hc | Hc]%elem_of_app; [by apply Hgood1 | by apply Hgood2].
  - rewrite run_snoc.
    apply dispatch_native_calls, run_selection_known_from, Hwf.
Qed.

(** X14: what the user sees after the detection that was asked for has
    failed, the native detector rejecting or throwing: no results block,
    and the error message on android only, where the status line is
    rendered; elsewhere the failure leaves nothing on the screen. *)
Theorem detection_error_shown_on_android_only
    (st : App.State) (w : World St) (types : list string) (e : Error) :
  trim (App.text st) ≠ "" →
  bridge_log (App.handleDetect N trim st w).2 =
    bridge_log w ++ [CallDetect (App.text st) types] →
  (native_detect N (App.text st) types (native_state w)).1 = Normal (Rejected e) ∨
  (native_detect N (App.text st) types (native_state w)).1 = Throw e →
  App.results_shown (App.handleDetect N trim st w).1 = None ∧
  App.status_shown OS (App.handleDetect N trim st w).1 =
    if decide (OS = "android")
    then Some (String.append "Detection error: " (message e))
    else None.
Proof.
  intros Htext Hlog Herr.
  rewrite (handleDetect_failure_state N trim st w types e Htext Hlog Herr).
  split; [done|].
  unfold App.status_shown. cbn [App.modelStatus].
  destruct (decide (OS = "android")); [|done].
  by destruct (decide (String.append "Detection error: " (message e) = "")).
Qed.

End SessionCalls.

Lemma detection_error_shown_on_android_only_witness :
  ascii_trim (App.text App.initial_state) ≠ "" ∧
  bridge_log
    (App.handleDetect ModelModule ascii_trim App.initial_state (boot false)).2 =
    bridge_log (boot false) ++
      [CallDetect (App.text App.initial_state)
         ["phoneNumber"; "link"; "email"; "address"; "date"]] ∧
  ((native_detect ModelModule (App.text App.initial_state)
      ["phoneNumber"; "link"; "email"; "address"; "date"]
      (native_state (boot false))).1 = Normal (Rejected model_missing) ∨
   (native_detect ModelModule (App.text App.initial_state)
      ["phoneNumber"; "link"; "email"; "address"; "date"]
      (native_state (boot false))).1 = Throw model_missing) ∧
  App.status_shown "ios"
    (App.handleDetect ModelModule ascii_trim App.initial_state (boot false)).1 = None ∧
  App.status_shown "android"
    (App.handleDetect ModelModule ascii_trim App.initial_state (boot false)).1 =
    Some "Detection error: Entity extraction model is not available".
Proof.
  split_and!; [exact sample_text_not_blank | reflexivity | left; reflexivity | |].
  - exact (proj2 (detection_error_shown_on_android_only ModelModule ascii_trim "ios"
             App.initial_state (boot false)
             ["phoneNumber"; "link"; "email"; "address"; "date"] model_missing
             sample_text_not_blank eq_refl (or_introl eq_refl))).
  - exact (proj2 (detection_error_shown_on_android_only ModelModule ascii_trim
             "android" App.initial_state (boot false)
             ["phoneNumber"; "link"; "email"; "address"; "date"] model_missing
             sample_text_not_blank eq_refl (or_introl eq_refl))).
Defined.

(** ** A session on the sample backends *)

Example session_on_android :
  App.run ModelModule ascii_trim "android"
    [App.PressDetect; App.PressDownload; App.PressChip 1; App.PressChip 0;
     App.PressChip 3; App.PressChip 4; App.ChangeText "john@example.com";
     App.PressDetect]
    App.initial_state (boot false) =
  (App.mkState "john@example.com" ["email"]
     [mkEntity "email" "john@example.com" 0 16 None] false (Some "Model ready"),
   mkWorld true
     [CallDetect App.SAMPLE_TEXT DEFAULT_TYPES; CallDownloadModel;
      CallDetect "john@example.com" ["email"]]).
Proof. reflexivity. Qed.

Example session_on_ios :
  App.run PatternModule ascii_trim "ios"
    [App.PressDownload; App.PressChip 7; App.ChangeText "   "; App.PressDetect]
    App.initial_state (boot ()) =
  (App.setText "   " App.initial_state, boot ()).
Proof. reflexivity. Qed.
